(** * A shallow embedding of the voice changer's per-block pipeline (main.py)

    The program is a sounddevice callback, [process_audio_block], that turns
    the input block into a mono signal, shifts its pitch with librosa, shifts
    its formants by two calls of scipy's [resample], multiplies by 1.2 and
    writes the result into the output buffer.

    Python floats are binary64 numbers: they are modelled by Rocq's primitive
    floats, so that [int(len(audio) * formant_factor)] is computed with the
    rounding the interpreter performs.  The numeric libraries (numpy, scipy,
    librosa) are not part of the program; they enter through the interface
    [DspLib], which records what their documentation and sources promise
    about lengths and failures, and nothing about sample values.

    [setup], and [update_loop] and [main] up to the loop that keeps the
    process alive, are modelled over a record [sounddevice] of what the
    audio system answers; they yield the trace of what was printed, opened
    and started. *)

From Stdlib Require Import ZArith List Bool Lia Floats.
From Stdlib Require String.
Import ListNotations.
Import String.StringSyntax.

Set Implicit Arguments.

(** ** Exceptions and results *)

(** Python exceptions by their class.  The builtins and the libraries used
    by main.py raise the first five and others, which [OtherException]
    stands for with the name of the class.  The last two are the error kinds
    the specification names; main.py has no [raise] statement and no library
    defines a class of either name. *)
Inductive exn : Type :=
| ValueError
| IndexError
| OverflowError
| ParameterError
| ZeroDivisionError
| OtherException (class_name : String.string)
| InvalidParameter
| UnsupportedChannelLayout.

(** An exception of a builtin or of a library: any but the two kinds of the
    specification. *)
Definition library_exn (e : exn) : bool :=
  match e with
  | InvalidParameter | UnsupportedChannelLayout => false
  | _ => true
  end.

Inductive result (A : Type) : Type :=
| Ok (a : A)
| Raise (e : exn).

Arguments Ok {A} a.
Arguments Raise {A} e.

Definition bind {A B : Type} (r : result A) (k : A -> result B) : result B :=
  match r with
  | Ok a => k a
  | Raise e => Raise e
  end.

Declare Scope py_scope.
Delimit Scope py_scope with py.
Notation "x <- c ;; k" := (bind c (fun x => k))
  (at level 61, c at next level, right associativity) : py_scope.
Open Scope py_scope.

(** ** Python floats *)

(** [int(x)] on a float: truncation toward zero; NaN and the infinities
    raise. *)
Definition py_int (x : float) : result Z :=
  match Prim2SF x with
  | S754_zero _ => Ok 0%Z
  | S754_infinity _ => Raise OverflowError
  | S754_nan => Raise ValueError
  | S754_finite s m e =>
      let mag := if (0 <=? e)%Z then Z.shiftl (Zpos m) e
                 else Z.shiftr (Zpos m) (- e) in
      Ok (if s then (- mag)%Z else mag)
  end.

(** The float an [int] becomes when it meets a float in a product.  Block
    lengths are far below 2^53, where the conversion is exact. *)
Definition float_of_len (n : nat) : float :=
  PrimFloat.of_uint63 (Uint63.of_Z (Z.of_nat n)).


(** Rounding to the nearest integer, ties to even, on the exact value of the
    float.  This follows the words of the specification ([round(len*ratio)]);
    main.py does not call it. *)
Definition spec_round (x : float) : result Z :=
  match Prim2SF x with
  | S754_zero _ => Ok 0%Z
  | S754_infinity _ => Raise OverflowError
  | S754_nan => Raise ValueError
  | S754_finite s m e =>
      let mag :=
        if (0 <=? e)%Z then Z.shiftl (Zpos m) e
        else
          let d := Z.shiftl 1 (- e) in
          let q := (Zpos m / d)%Z in
          let r := (Zpos m mod d)%Z in
          match (2 * r ?= d)%Z with
          | Lt => q
          | Gt => (q + 1)%Z
          | Eq => if Z.even q then q else (q + 1)%Z
          end in
      Ok (if s then (- mag)%Z else mag)
  end.

(** ** Configuration (main.py, lines 9-12) *)

Definition SAMPLE_RATE : Z := 44100.
Definition BLOCK_SIZE : Z := 1024.
Definition PITCH_SHIFT : float := 1.5.
(** The binary64 number nearest to 1.2, which is what the literal denotes. *)
Definition FORMANT_SHIFT : float := 0x1.3333333333333p+0.
(** The literal 1.2 of line 38. *)
Definition GAIN : float := 0x1.3333333333333p+0.

(** [int(len(audio) * formant_factor)] of line 21, for a block of [len]
    samples. *)
Definition stretched_length (len : nat) (formant_factor : float) : result Z :=
  py_int (float_of_len len * formant_factor)%float.

(** The intermediate length in the words of the specification:
    [round(len * ratio)]. *)
Definition spec_stretched_length (len : nat) (ratio : float) : result Z :=
  spec_round (float_of_len len * ratio)%float.

(** ** The numeric libraries *)

(** What main.py relies on from numpy, scipy and librosa, for arrays whose
    elements have type [sample].

    - [np_log2] is [numpy.log2] on a float.  At zero it yields minus infinity
      and at a negative number NaN (with a warning, not an exception).
    - [np_multiply x c] is one element of [array * c] for a Python float [c].
    - [resample x num] is [scipy.signal.resample] on a one-dimensional real
      array.  For a non-empty array and [num >= 1] it returns [num]
      samples.  It raises on an empty array and on a negative [num]; which
      exception is the library's affair.  At [num = 0] it returns no
      samples if it returns at all: scipy 1.17 raises there, and releases
      as old as 1.11, which returned one sample, are outside
      [resample_zero].
    - [pitch_shift y sr n_steps] is [librosa.effects.pitch_shift]; its last
      step is [util.fix_length(y_shift, size=y.shape[-1])], so a result has
      as many samples as [y].  It may raise (on non-finite audio, for
      instance), and does when the number of steps is minus infinity or
      NaN: the stretch rate [2.0 ** (-n_steps / 12)] is then infinite or
      NaN, and the arithmetic on it fails.
    - No library raises an exception of the two kinds the specification
      names. *)
Class DspLib (sample : Type) : Type := {
  np_log2 : float -> float;
  np_multiply : sample -> float -> sample;
  resample : list sample -> Z -> result (list sample);
  pitch_shift : list sample -> Z -> float -> result (list sample);

  np_log2_zero : forall x, PrimFloat.compare x 0 = FEq ->
                           np_log2 x = neg_infinity;
  np_log2_negative : forall x, PrimFloat.compare x 0 = FLt ->
                               np_log2 x = nan;
  np_log2_one : np_log2 1 = 0%float;
  resample_returns : forall x num, (1 <= num)%Z -> x <> [] ->
      exists y, resample x num = Ok y /\ Z.of_nat (length y) = num;
  resample_empty : forall num, exists e, resample [] num = Raise e;
  resample_negative : forall x num, (num < 0)%Z ->
      exists e, resample x num = Raise e;
  resample_zero : forall x y, resample x 0 = Ok y -> y = [];
  resample_exn : forall x num e,
      resample x num = Raise e -> library_exn e = true;
  pitch_shift_length : forall y sr n_steps out,
      pitch_shift y sr n_steps = Ok out -> length out = length y;
  pitch_shift_neg_infinity : forall y sr,
      exists e, pitch_shift y sr neg_infinity = Raise e;
  pitch_shift_nan : forall y sr, exists e, pitch_shift y sr nan = Raise e;
  pitch_shift_exn : forall y sr n_steps e,
      pitch_shift y sr n_steps = Raise e -> library_exn e = true
}.

(** ** Two-dimensional arrays *)

(** [indata] and [outdata] have shape (frames, channels).  The channel count
    is kept beside the rows because an array without rows still has one. *)
Record ndarray (sample : Type) : Type := {
  shape1 : nat;
  rows : list (list sample)
}.

Definition shape0 {sample : Type} (a : ndarray sample) : nat :=
  length (rows a).

(** Arrays are rectangular. *)
Definition rectangular {sample : Type} (a : ndarray sample) : Prop :=
  Forall (fun r => length r = shape1 a) (rows a).

Section Arrays.
Context {sample : Type}.

(** [a[:, j]] *)
Fixpoint column (j : nat) (rs : list (list sample)) : result (list sample) :=
  match rs with
  | [] => Ok []
  | r :: rs' =>
      match nth_error r j with
      | Some x => xs <- column j rs' ;; Ok (x :: xs)
      | None => Raise IndexError
      end
  end.

Definition take_column (a : ndarray sample) (j : nat) : result (list sample) :=
  if (j <? shape1 a)%nat then column j (rows a) else Raise IndexError.

(** [a.flatten()], row-major. *)
Definition flatten (a : ndarray sample) : list sample := concat (rows a).

(** [v.reshape(-1, 1)] on a one-dimensional [v]. *)
Definition reshape_column (v : list sample) : ndarray sample :=
  {| shape1 := 1; rows := map (fun x => [x]) v |}.

(** [np.column_stack((p, q))] on one-dimensional [p] and [q]. *)
Definition column_stack (p q : list sample) : result (ndarray sample) :=
  if (length p =? length q)%nat
  then Ok {| shape1 := 2;
             rows := map (fun xy => [fst xy; snd xy]) (combine p q) |}
  else Raise ValueError.

(** Broadcasting of one axis: the sizes agree or the source has size 1. *)
Definition broadcastable (have want : nat) : bool :=
  (have =? want)%nat || (have =? 1)%nat.

Definition stretch {A : Type} (want : nat) (l : list A) : list A :=
  if (length l =? want)%nat then l
  else match l with
       | [x] => repeat x want
       | _ => l
       end.

(** [out[:] = v]: the new contents of [out], whose shape does not change. *)
Definition assign_all (out v : ndarray sample) : result (ndarray sample) :=
  if broadcastable (shape0 v) (shape0 out)
     && broadcastable (shape1 v) (shape1 out)
  then Ok {| shape1 := shape1 out;
             rows := stretch (shape0 out)
                       (map (stretch (shape1 out)) (rows v)) |}
  else Raise ValueError.
End Arrays.

(** ** The callback's environment *)

(** The condition flags sounddevice passes as [status]; a [CallbackFlags]
    object is truthy when a flag is set. *)
Inductive flag : Type :=
| input_underflow
| input_overflow
| output_underflow
| output_overflow
| priming_output.

Definition CallbackFlags : Type := list flag.

Definition truthy (status : CallbackFlags) : bool :=
  match status with
  | [] => false
  | _ :: _ => true
  end.

(** The [time] argument of the callback, which main.py never reads. *)
Record time_info : Type := {
  inputBufferAdcTime : float;
  currentTime : float;
  outputBufferDacTime : float
}.

(** What outlives one call of the callback: the lines printed so far and the
    output buffer, which the callback overwrites in place. *)
Record store (sample : Type) : Type := {
  stdout : list CallbackFlags;
  outdata : ndarray sample
}.

(** ** main.py *)

Section Main.
Context {sample : Type} {lib : DspLib sample}.

(** Lines 14-16. *)
Definition shift_pitch (audio : list sample) (pitch_factor : float)
  : result (list sample) :=
  pitch_shift audio SAMPLE_RATE (np_log2 pitch_factor * 12)%float.

(** Line 21: [resample(audio, int(len(audio) * formant_factor))]; the
    argument is evaluated before the call. *)
Definition stretched (audio : list sample) (formant_factor : float)
  : result (list sample) :=
  num <- stretched_length (length audio) formant_factor ;;
  resample audio num.

(** Lines 18-23. *)
Definition shift_formant (audio : list sample) (formant_factor : float)
  : result (list sample) :=
  s <- stretched audio formant_factor ;;
  resample s (Z.of_nat (length audio)).

(** Line 29: the mono signal the stages work on. *)
Definition input_audio (indata : ndarray sample) : result (list sample) :=
  if (shape1 indata =? 2)%nat then take_column indata 0
  else Ok (flatten indata).

(** Line 38. *)
Definition gain_stage (processed : list sample) : list sample :=
  map (fun x => np_multiply x GAIN) processed.

(** Line 41, right-hand side: the array assigned to [outdata]. *)
Definition output_layout (indata : ndarray sample) (processed : list sample)
  : result (ndarray sample) :=
  if (shape1 indata =? 1)%nat then Ok (reshape_column processed)
  else column_stack processed processed.

(** Lines 29-41: the value the callback assigns to [outdata[:]]. *)
Definition transformed (indata : ndarray sample) : result (ndarray sample) :=
  audio <- input_audio indata ;;
  pitched <- shift_pitch audio PITCH_SHIFT ;;
  processed <- shift_formant pitched FORMANT_SHIFT ;;
  output_layout indata (gain_stage processed).

(** Lines 25-41.  An exception leaves the buffer as it was; what was
    printed before it stays printed. *)
Definition process_audio_block (indata : ndarray sample) (frames : Z)
    (time : time_info) (status : CallbackFlags) (st : store sample)
  : result unit * store sample :=
  let printed := if truthy status then stdout st ++ [status] else stdout st in
  match (value <- transformed indata ;; assign_all (outdata st) value) with
  | Ok out => (Ok tt, {| stdout := printed; outdata := out |})
  | Raise e => (Raise e, {| stdout := printed; outdata := outdata st |})
  end.

End Main.

(** ** The audio host *)

(** An entry of [sd.query_devices()], with the keys main.py reads. *)
Record device : Type := {
  index : Z;
  name : String.string;
  max_input_channels : Z;
  max_output_channels : Z
}.

(** A call into sounddevice returns or raises; of an exception main.py
    reads [str(e)] only. *)
Inductive sd_result (A : Type) : Type :=
| Returned (a : A)
| Raised (message : String.string).

Arguments Returned {A} a.
Arguments Raised {A} message.

(** What a stream calls for every block: nothing, unless it was given a
    callback. *)
Inductive stream_callback : Type :=
| no_callback
| calls_process_audio_block.

(** A stream, by the arguments [sd.Stream] got; [callback] is a keyword
    argument of [sd.Stream] that defaults to [None]. *)
Record Stream : Type := {
  samplerate : Z;
  blocksize : Z;
  channels : Z;
  stream_device : Z * Z;
  callback : stream_callback
}.

(** The audio system main.py talks to: the device list, the default input
    and output devices ([None] when unset), and whether constructing or
    starting a stream raises, with which message. *)
Record sounddevice : Type := {
  query_devices : sd_result (list device);
  default_device : option Z * option Z;
  Stream_init : Stream -> option String.string;
  Stream_start : Stream -> option String.string
}.

(** What the program does that can be seen from outside. *)
Inductive event : Type :=
| Printed (line : String.string)
| Opened (stream : Stream)
| Started (stream : Stream).

(** How a function ends: it returns, [exit(code)] ends the process
    ([SystemExit] is not an [Exception], so no handler of main.py catches
    it), or an exception escapes. *)
Inductive outcome (A : Type) : Type :=
| Return (a : A)
| Exit (code : Z)
| Uncaught (message : String.string).

Arguments Return {A} a.
Arguments Exit {A} code.
Arguments Uncaught {A} message.

Open Scope string_scope.

Definition starting_line : String.string :=
  "Starting real-time voice changer: Male to Ariana Grande-style female voice".

Definition no_devices_line : String.string :=
  "No audio devices detected. Please ensure a microphone and speaker are connected.".

Definition no_input_line (dev : device) : String.string :=
  String.append "Selected input device "
    (String.append (name dev) " does not support input.").

Definition no_output_line (dev : device) : String.string :=
  String.append "Selected output device "
    (String.append (name dev) " does not support output.").

Definition setup_error_line (message : String.string) : String.string :=
  String.append "Error setting up audio: " message.

Close Scope string_scope.

(** Lines 55-61: the first complaint of the loop over the devices, if any. *)
Fixpoint check_devices (input_device output_device : Z) (devices : list device)
  : option String.string :=
  match devices with
  | [] => None
  | dev :: devices' =>
      if (index dev =? input_device)%Z && (max_input_channels dev =? 0)%Z
      then Some (no_input_line dev)
      else if (index dev =? output_device)%Z
              && (max_output_channels dev =? 0)%Z
      then Some (no_output_line dev)
      else check_devices input_device output_device devices'
  end.

(** Lines 52-53: the default device if there is one, else the first of the
    list. *)
Definition chosen_device (default : option Z) (first : device) : Z :=
  match default with
  | Some d => d
  | None => index first
  end.

(** Lines 63-68: the arguments of [sd.Stream]. *)
Definition Stream_args (input_device output_device : Z) : Stream :=
  {| samplerate := SAMPLE_RATE;
     blocksize := BLOCK_SIZE;
     channels := 1;
     stream_device := (input_device, output_device);
     callback := no_callback |}.

(** Lines 43-72. *)
Definition setup (host : sounddevice) : list event * outcome Stream :=
  let started := [Printed starting_line] in
  match query_devices host with
  | Raised message =>
      (started ++ [Printed (setup_error_line message)], Exit 1)
  | Returned [] => (started ++ [Printed no_devices_line], Exit 1)
  | Returned (first :: rest) =>
      let input_device := chosen_device (fst (default_device host)) first in
      let output_device := chosen_device (snd (default_device host)) first in
      match check_devices input_device output_device (first :: rest) with
      | Some complaint => (started ++ [Printed complaint], Exit 1)
      | None =>
          let stream := Stream_args input_device output_device in
          match Stream_init host stream with
          | Some message =>
              (started ++ [Printed (setup_error_line message)], Exit 1)
          | None => (started ++ [Opened stream], Return stream)
          end
      end
  end.

(** Lines 75-76: [update_loop] up to the loop.  The loop sleeps until an
    interrupt arrives; it and the handler of lines 80-83 belong to the
    event loop and are not modelled. *)
Definition update_loop_start (host : sounddevice)
  : list event * outcome Stream :=
  match setup host with
  | (trace, Return stream) =>
      match Stream_start host stream with
      | Some message => (trace, Uncaught message)
      | None => (trace ++ [Started stream], Return stream)
      end
  | (trace, Exit code) => (trace, Exit code)
  | (trace, Uncaught message) => (trace, Uncaught message)
  end.

(** Lines 86-87: [main] up to the loop of [update_loop]; [host] is the audio
    system at the first call of [setup] and [host'] at the second. *)
Definition main_start (host host' : sounddevice)
  : list event * outcome Stream :=
  match setup host with
  | (trace, Return _) =>
      let (trace', end') := update_loop_start host' in
      (trace ++ trace', end')
  | (trace, Exit code) => (trace, Exit code)
  | (trace, Uncaught message) => (trace, Uncaught message)
  end.

(** The streams a trace opens, in order. *)
Fixpoint opened (trace : list event) : list Stream :=
  match trace with
  | [] => []
  | Opened stream :: trace' => stream :: opened trace'
  | _ :: trace' => opened trace'
  end.

(** The streams a trace starts, in order. *)
Fixpoint started (trace : list event) : list Stream :=
  match trace with
  | [] => []
  | Started stream :: trace' => stream :: started trace'
  | _ :: trace' => started trace'
  end.

(** The lines a trace prints, in order. *)
Fixpoint printed (trace : list event) : list String.string :=
  match trace with
  | [] => []
  | Printed line :: trace' => line :: printed trace'
  | _ :: trace' => printed trace'
  end.

(** ** Predicates used to state the properties *)


(** Two buffers of the same shape. *)
Definition same_shape {sample : Type} (a b : ndarray sample) : Prop :=
  shape0 a = shape0 b /\ shape1 a = shape1 b.

(** The samples of channel 0, row by row, for rows that have one. *)
Definition first_channel {sample : Type} (a : ndarray sample)
  : list (option sample) :=
  map (@hd_error sample) (rows a).

(** [ratio > 0] on floats (false on NaN). *)
Definition positive_ratio (ratio : float) : bool :=
  match PrimFloat.compare ratio 0 with
  | FGt => true
  | FEq | FLt | FNotComparable => false
  end.

(** A float that [int] cannot turn into a positive integer: NaN, an
    infinity, a zero or a negative number. *)
Definition no_positive_int (x : spec_float) : Prop :=
  match x with
  | S754_finite false _ _ => False
  | _ => True
  end.

(** A float that is not negative: its sign bit is clear, or it is NaN. *)
Definition sign_clear (x : spec_float) : Prop :=
  match x with
  | S754_zero s | S754_infinity s | S754_finite s _ _ => s = false
  | S754_nan => True
  end.

(** [p] holds of the [count] integers from [from] on. *)
Fixpoint range_all (p : Z -> bool) (count : nat) (from : Z) : bool :=
  match count with
  | O => true
  | S count' => p from && range_all p count' (from + 1)%Z
  end.

(** Whether the intermediate length of line 21, for a block of [k] samples
    at the configured formant ratio, is six fifths of [k] cut to an
    integer. *)
Definition six_fifths (k : Z) : bool :=
  match py_int (PrimFloat.of_uint63 (Uint63.of_Z k) * FORMANT_SHIFT)%float with
  | Ok num => (num =? 6 * k / 5)%Z
  | Raise _ => false
  end.

(** ** A small implementation of the library interface

    It shows that the interface can be met and lets the functions of main.py
    run on concrete blocks.  Its sample values are not those of scipy or
    librosa: [resample] holds samples instead of interpolating in the
    frequency domain, [pitch_shift] returns its input for a finite number
    of steps, and [np_log2] is the binary exponent, which is the logarithm
    on powers of two.  Where the libraries raise, it raises what scipy 1.17
    and librosa 0.11 do. *)
Module Reference.

Definition np_log2 (x : float) : float :=
  match PrimFloat.compare x 0 with
  | FEq => neg_infinity
  | FLt | FNotComparable => nan
  | FGt =>
      let (_, e) := PrimFloat.frshiftexp x in
      (PrimFloat.of_uint63 e
       - PrimFloat.of_uint63 (Uint63.of_Z FloatOps.shift) - 1)%float
  end.

Definition hold (x : list float) (num : Z) (i : nat) : float :=
  nth (Z.to_nat (Z.of_nat i * Z.of_nat (length x) / num)) x 0%float.

Definition resample (x : list float) (num : Z) : result (list float) :=
  match x with
  | [] => Raise ZeroDivisionError
  | _ :: _ =>
      if (num <? 0)%Z then Raise IndexError
      else if (num =? 0)%Z then Raise ZeroDivisionError
      else Ok (map (hold x num) (seq 0 (Z.to_nat num)))
  end.

Definition pitch_shift (y : list float) (sr : Z) (n_steps : float)
  : result (list float) :=
  match Prim2SF n_steps with
  | S754_nan => Raise ValueError
  | S754_infinity _ => Raise ZeroDivisionError
  | S754_zero _ | S754_finite _ _ _ => Ok y
  end.

Lemma np_log2_zero_holds (x : float) :
  PrimFloat.compare x 0 = FEq -> np_log2 x = neg_infinity.
Proof. intros H. unfold np_log2. now rewrite H. Qed.

Lemma np_log2_negative_holds (x : float) :
  PrimFloat.compare x 0 = FLt -> np_log2 x = nan.
Proof. intros H. unfold np_log2. now rewrite H. Qed.

Lemma np_log2_one_holds : np_log2 1 = 0%float.
Proof. vm_compute. reflexivity. Qed.

Lemma resample_returns_holds (x : list float) (num : Z) :
  (1 <= num)%Z -> x <> [] ->
  exists y, resample x num = Ok y /\ Z.of_nat (length y) = num.
Proof.
  intros Hnum Hx. unfold resample.
  destruct x as [|a x]; [congruence|].
  destruct (Z.ltb_spec num 0); [lia|].
  destruct (Z.eqb_spec num 0); [lia|].
  eexists; split; [reflexivity|].
  rewrite length_map, length_seq. lia.
Qed.

Lemma resample_empty_holds (num : Z) : exists e, resample [] num = Raise e.
Proof. eexists. reflexivity. Qed.

Lemma resample_negative_holds (x : list float) (num : Z) :
  (num < 0)%Z -> exists e, resample x num = Raise e.
Proof.
  intros H. unfold resample. destruct x; [eauto|].
  apply Z.ltb_lt in H. rewrite H. eauto.
Qed.

Lemma resample_zero_holds (x y : list float) : resample x 0 = Ok y -> y = [].
Proof. unfold resample. destruct x; discriminate. Qed.

Lemma resample_exn_holds (x : list float) (num : Z) (e : exn) :
  resample x num = Raise e -> library_exn e = true.
Proof.
  unfold resample. destruct x; [now inversion 1|].
  destruct (num <? 0)%Z; [now inversion 1|].
  destruct (num =? 0)%Z; [now inversion 1 | discriminate].
Qed.

Lemma pitch_shift_length_holds (y : list float) (sr : Z) (n_steps : float)
    (out : list float) :
  pitch_shift y sr n_steps = Ok out -> length out = length y.
Proof. unfold pitch_shift. destruct (Prim2SF n_steps); congruence. Qed.

Lemma pitch_shift_neg_infinity_holds (y : list float) (sr : Z) :
  exists e, pitch_shift y sr neg_infinity = Raise e.
Proof. eexists. reflexivity. Qed.

Lemma pitch_shift_nan_holds (y : list float) (sr : Z) :
  exists e, pitch_shift y sr nan = Raise e.
Proof. eexists. reflexivity. Qed.

Lemma pitch_shift_exn_holds (y : list float) (sr : Z) (n_steps : float)
    (e : exn) :
  pitch_shift y sr n_steps = Raise e -> library_exn e = true.
Proof.
  unfold pitch_shift. destruct (Prim2SF n_steps); now inversion 1.
Qed.

End Reference.

#[export] Instance reference_lib : DspLib float := {
  np_log2 := Reference.np_log2;
  np_multiply := PrimFloat.mul;
  resample := Reference.resample;
  pitch_shift := Reference.pitch_shift;
  np_log2_zero := Reference.np_log2_zero_holds;
  np_log2_negative := Reference.np_log2_negative_holds;
  np_log2_one := Reference.np_log2_one_holds;
  resample_returns := Reference.resample_returns_holds;
  resample_empty := Reference.resample_empty_holds;
  resample_negative := Reference.resample_negative_holds;
  resample_zero := Reference.resample_zero_holds;
  resample_exn := Reference.resample_exn_holds;
  pitch_shift_length := Reference.pitch_shift_length_holds;
  pitch_shift_neg_infinity := Reference.pitch_shift_neg_infinity_holds;
  pitch_shift_nan := Reference.pitch_shift_nan_holds;
  pitch_shift_exn := Reference.pitch_shift_exn_holds
}.

(** ** Concrete blocks

    The blocks below hold binary64 samples; the library is the small
    implementation above where a statement needs one to run, and arbitrary
    where the statement holds for every library. *)

Definition silence (n : nat) : list float := repeat 0%float n.

Definition no_time : time_info :=
  {| inputBufferAdcTime := 0; currentTime := 0; outputBufferDacTime := 0 |}.

(** A block of two frames and three channels. *)
Definition three_channels : ndarray float :=
  {| shape1 := 3; rows := [[1; 2; 3]; [4; 5; 6]]%float |}.

(** A block of two frames and two channels. *)
Definition two_channels : ndarray float :=
  {| shape1 := 2; rows := [[1; 7]; [2; 8]]%float |}.

(** The same first channel beside another second channel. *)
Definition two_channels' : ndarray float :=
  {| shape1 := 2; rows := [[1; 0]; [2; 0]]%float |}.

(** A mono block of four frames and two buffers of its shape. *)
Definition one_channel : ndarray float :=
  {| shape1 := 1; rows := [[1]; [2]; [3]; [4]]%float |}.

Definition fresh_store : store float :=
  {| stdout := [];
     outdata := {| shape1 := 1; rows := [[0]; [0]; [0]; [0]]%float |} |}.

Definition used_store : store float :=
  {| stdout := [[output_underflow]];
     outdata := {| shape1 := 1; rows := [[9]; [9]; [9]; [9]]%float |} |}.

(** An audio system with one device for both directions and no defaults;
    streams can be constructed and started. *)
Definition duplex : device :=
  {| index := 0; name := String.EmptyString;
     max_input_channels := 2; max_output_channels := 2 |}.

Definition studio : sounddevice :=
  {| query_devices := Returned [duplex];
     default_device := (None, None);
     Stream_init := fun _ => None;
     Stream_start := fun _ => None |}.

(** A block without frames and a buffer without frames. *)
Definition no_frames : ndarray float := {| shape1 := 1; rows := [] |}.

Definition empty_store : store float :=
  {| stdout := []; outdata := no_frames |}.

(** Buffers of two frames with two and with three channels. *)
Definition stereo_store : store float :=
  {| stdout := [];
     outdata := {| shape1 := 2; rows := [[0; 0]; [0; 0]]%float |} |}.

Definition wide_store : store float :=
  {| stdout := [];
     outdata := {| shape1 := 3; rows := [[0; 0; 0]; [0; 0; 0]]%float |} |}.

(** The mono block with the first channel of [two_channels]. *)
Definition first_of_two : ndarray float :=
  {| shape1 := 1; rows := [[1]; [2]]%float |}.

(** What the pipeline makes of [one_channel] and of [first_of_two] with the
    small library. *)
Definition one_channel_value : ndarray float :=
  Eval vm_compute in
    match transformed (lib := reference_lib) one_channel with
    | Ok value => value
    | Raise _ => no_frames
    end.

Definition first_of_two_value : ndarray float :=
  Eval vm_compute in
    match transformed (lib := reference_lib) first_of_two with
    | Ok value => value
    | Raise _ => no_frames
    end.

(** ** Facts about results *)

Lemma bind_ok {A B : Type} (r : result A) (k : A -> result B) (b : B) :
  bind r k = Ok b -> exists a, r = Ok a /\ k a = Ok b.
Proof.
  destruct r as [a | e]; simpl; intros H; [eauto | discriminate].
Qed.

Lemma bind_raise {A B : Type} (r : result A) (k : A -> result B) (e : exn) :
  bind r k = Raise e ->
  r = Raise e \/ exists a, r = Ok a /\ k a = Raise e.
Proof.
  destruct r as [a | e']; simpl; intros H; [right; eauto | left; congruence].
Qed.

Ltac invert_bind H :=
  let a := fresh "a" in
  let Ha := fresh "H" a in
  apply bind_ok in H; destruct H as (a & Ha & H).

(** ** Python floats *)

(** [int] raises only on NaN and the infinities, with builtin exceptions. *)
Lemma py_int_exn (x : float) (e : exn) :
  py_int x = Raise e -> e = ValueError \/ e = OverflowError.
Proof.
  unfold py_int. destruct (Prim2SF x); intros H; inversion H; auto.
Qed.


(** The length of the empty block times any ratio is zero or NaN. *)
Lemma stretched_length_empty (ratio : float) (n : Z) :
  stretched_length 0 ratio = Ok n -> n = 0%Z.
Proof.
  unfold stretched_length, py_int. rewrite mul_spec.
  change (Prim2SF (float_of_len 0)) with (S754_zero false).
  destruct (Prim2SF ratio) as [s | s | | s m e]; simpl; congruence.
Qed.


(** ** The two shifters *)

Section Shifters.
Context {sample : Type} {lib : DspLib sample}.

(** A non-empty result of [resample] has as many samples as were asked
    for. *)
Lemma resample_nonempty (x y : list sample) (num : Z) :
  resample x num = Ok y -> (1 <= num)%Z -> Z.of_nat (length y) = num.
Proof.
  intros H Hnum. destruct x as [|a x].
  - destruct (resample_empty num) as (e & He). congruence.
  - destruct (resample_returns (x := a :: x) Hnum) as (y' & Hy' & Hlen);
      [discriminate|].
    congruence.
Qed.

(** So has every result, empty or not. *)
Lemma resample_length (x y : list sample) (num : Z) :
  resample x num = Ok y -> Z.of_nat (length y) = num.
Proof.
  intros H. destruct (Z.lt_trichotomy num 0) as [Hneg | [-> | Hpos]].
  - destruct (resample_negative x Hneg) as (e & He). congruence.
  - apply resample_zero in H. now subst y.
  - apply (resample_nonempty _ H). lia.
Qed.

Lemma stretched_ok (audio s : list sample) (formant_factor : float) :
  stretched audio formant_factor = Ok s ->
  exists num, stretched_length (length audio) formant_factor = Ok num
              /\ resample audio num = Ok s
              /\ Z.of_nat (length s) = num.
Proof.
  unfold stretched. intros H. invert_bind H.
  exists a. repeat split; auto. now apply resample_length in H.
Qed.

(** The result of [shift_formant] comes from a call of [resample] for
    [len(audio)] samples; an empty [audio] does not get that far. *)
Lemma shift_formant_length (audio out : list sample) (formant_factor : float) :
  shift_formant audio formant_factor = Ok out -> length out = length audio.
Proof.
  unfold shift_formant. intros H. invert_bind H.
  destruct audio as [|x audio].
  - unfold stretched in Ha. invert_bind Ha.
    destruct (resample_empty a0) as (e & He). congruence.
  - apply Nat2Z.inj. apply (resample_nonempty _ H). simpl. lia.
Qed.

Lemma shift_formant_returns (audio : list sample) (formant_factor : float)
    (num : Z) :
  stretched_length (length audio) formant_factor = Ok num ->
  (1 <= num)%Z -> audio <> [] ->
  exists out, shift_formant audio formant_factor = Ok out
              /\ length out = length audio.
Proof.
  intros Hnum Hge Hne.
  destruct (resample_returns Hge Hne) as (s & Hs & Hlen).
  assert (Hs' : s <> []) by (intros ->; simpl in Hlen; lia).
  assert (Hback : (1 <= Z.of_nat (length audio))%Z)
    by (destruct audio; [congruence | simpl; lia]).
  destruct (resample_returns Hback Hs') as (out & Hout & Hlen').
  exists out. split; [|now apply Nat2Z.inj].
  unfold shift_formant, stretched. rewrite Hnum. simpl.
  rewrite Hs. simpl. exact Hout.
Qed.

(** A failure of [shift_formant] comes from [int] or from [resample]. *)
Lemma shift_formant_exn (audio : list sample) (formant_factor : float)
    (e : exn) :
  shift_formant audio formant_factor = Raise e -> library_exn e = true.
Proof.
  unfold shift_formant, stretched. intros H.
  apply bind_raise in H. destruct H as [H | (s & _ & H)].
  - apply bind_raise in H. destruct H as [H | (n & _ & H)].
    + apply py_int_exn in H. destruct H; now subst e.
    + now apply resample_exn in H.
  - now apply resample_exn in H.
Qed.

Lemma shift_pitch_length (audio out : list sample) (pitch_factor : float) :
  shift_pitch audio pitch_factor = Ok out -> length out = length audio.
Proof. unfold shift_pitch. apply pitch_shift_length. Qed.

Lemma shift_pitch_exn (audio : list sample) (pitch_factor : float) (e : exn) :
  shift_pitch audio pitch_factor = Raise e -> library_exn e = true.
Proof. unfold shift_pitch. apply pitch_shift_exn. Qed.


End Shifters.

(** ** Arrays *)

Section ArrayFacts.
Context {sample : Type}.

Lemma column_spec (j : nat) (rs : list (list sample)) (out : list sample) :
  column j rs = Ok out <-> map (fun r => nth_error r j) rs = map Some out.
Proof.
  revert out. induction rs as [|r rs IH]; intros out; simpl.
  - split; intros H.
    + inversion H. reflexivity.
    + destruct out; [reflexivity | discriminate].
  - destruct (nth_error r j) as [x|] eqn:Hx.
    + split; intros H.
      * invert_bind H. inversion H; subst out. simpl.
        f_equal. now apply IH.
      * destruct out as [|y out]; [discriminate|].
        simpl in H. inversion H; subst y.
        assert (Hc : column j rs = Ok out) by now apply IH.
        rewrite Hc. reflexivity.
    + split; intros H; [discriminate|].
      destruct out; discriminate.
Qed.

Lemma column_exn (j : nat) (rs : list (list sample)) (e : exn) :
  column j rs = Raise e -> e = IndexError.
Proof.
  induction rs as [|r rs IH]; simpl; [discriminate|].
  destruct (nth_error r j); [|now inversion 1].
  destruct (column j rs); simpl; [discriminate|].
  intros H. apply IH. congruence.
Qed.

Lemma column_returns (j c : nat) (rs : list (list sample)) :
  Forall (fun r => length r = c) rs -> (j < c)%nat ->
  exists out, column j rs = Ok out /\ length out = length rs.
Proof.
  intros Hrect Hj. induction Hrect as [|r rs Hr _ IH]; simpl.
  - exists []. auto.
  - destruct (nth_error r j) as [x|] eqn:Hx.
    + destruct IH as (out & Hout & Hlen). rewrite Hout. simpl.
      exists (x :: out). simpl. auto.
    + apply nth_error_None in Hx. lia.
Qed.

Lemma nth_error_0 (r : list sample) : nth_error r 0 = hd_error r.
Proof. now destruct r. Qed.

Lemma take_column_exn (a : ndarray sample) (j : nat) (e : exn) :
  take_column a j = Raise e -> e = IndexError.
Proof.
  unfold take_column. destruct (j <? shape1 a)%nat.
  - apply column_exn.
  - now inversion 1.
Qed.

Lemma flatten_length (a : ndarray sample) :
  rectangular a -> length (flatten a) = (shape0 a * shape1 a)%nat.
Proof.
  unfold rectangular, flatten, shape0. intros H.
  induction H as [|r rs Hr _ IH]; simpl; [reflexivity|].
  rewrite length_app, IH, Hr. reflexivity.
Qed.

Lemma combine_diag (p : list sample) :
  combine p p = map (fun x => (x, x)) p.
Proof. induction p as [|x p IH]; simpl; congruence. Qed.

Lemma column_stack_diag (p : list sample) :
  column_stack p p = Ok {| shape1 := 2; rows := map (fun x => [x; x]) p |}.
Proof.
  unfold column_stack. rewrite Nat.eqb_refl, combine_diag, map_map.
  reflexivity.
Qed.

Lemma column_stack_exn (p q : list sample) (e : exn) :
  column_stack p q = Raise e -> e = ValueError.
Proof.
  unfold column_stack. destruct (_ =? _)%nat; now inversion 1.
Qed.

Lemma stretch_same {A : Type} (want : nat) (l : list A) :
  length l = want -> stretch want l = l.
Proof. unfold stretch. intros <-. now rewrite Nat.eqb_refl. Qed.

Lemma stretch_length {A : Type} (want : nat) (l : list A) :
  broadcastable (length l) want = true -> length (stretch want l) = want.
Proof.
  unfold broadcastable, stretch.
  destruct (Nat.eqb_spec (length l) want) as [Heq | Hne]; [auto|].
  simpl. intros H. apply Nat.eqb_eq in H.
  destruct l as [|x [|y l]]; try discriminate.
  apply repeat_length.
Qed.

(** The assignment reads the shape of the buffer and nothing else of it. *)
Lemma assign_all_shape (out out' v : ndarray sample) :
  same_shape out out' -> assign_all out v = assign_all out' v.
Proof.
  unfold same_shape, assign_all. intros [H0 H1]. now rewrite H0, H1.
Qed.

(** It keeps the shape of the buffer. *)
Lemma assign_all_keeps_shape (out v new : ndarray sample) :
  assign_all out v = Ok new -> same_shape new out.
Proof.
  unfold assign_all, same_shape, shape0.
  destruct (broadcastable (length (rows v)) (length (rows out))) eqn:Hb;
    simpl; [|discriminate].
  destruct (broadcastable (shape1 v) (shape1 out)); [|discriminate].
  intros H. inversion H; subst new; clear H. simpl. split; [|reflexivity].
  apply stretch_length. now rewrite length_map.
Qed.

Lemma assign_all_exn (out v : ndarray sample) (e : exn) :
  assign_all out v = Raise e -> e = ValueError.
Proof.
  unfold assign_all. destruct (_ && _); now inversion 1.
Qed.

(** A value of the buffer's shape is stored as it is. *)
Lemma assign_all_exact (out v : ndarray sample) :
  rectangular v -> same_shape v out -> assign_all out v = Ok v.
Proof.
  unfold rectangular, same_shape, assign_all, broadcastable.
  intros Hrect [H0 H1]. rewrite <- H0, <- H1, !Nat.eqb_refl. simpl.
  destruct v as [c rs]; simpl in *. clear H0 H1. f_equal. f_equal.
  rewrite stretch_same.
  - induction Hrect as [|r rs Hr _ IH]; simpl; [reflexivity|].
    now rewrite IH, stretch_same.
  - unfold shape0. simpl. now rewrite length_map.
Qed.

End ArrayFacts.

(** ** The callback *)

Section Callback.
Context {sample : Type} {lib : DspLib sample}.

Lemma stretched_returns (audio : list sample) (formant_factor : float)
    (num : Z) :
  stretched_length (length audio) formant_factor = Ok num ->
  (1 <= num)%Z -> audio <> [] ->
  exists s, stretched audio formant_factor = Ok s
            /\ Z.of_nat (length s) = num.
Proof.
  intros Hnum Hge Hne.
  destruct (resample_returns Hge Hne) as (s & Hs & Hlen).
  exists s. split; [|exact Hlen].
  unfold stretched. rewrite Hnum. exact Hs.
Qed.

Lemma input_audio_exn (indata : ndarray sample) (e : exn) :
  input_audio indata = Raise e -> e = IndexError.
Proof.
  unfold input_audio. destruct (shape1 indata =? 2)%nat.
  - apply take_column_exn.
  - discriminate.
Qed.

Lemma output_layout_exn (indata : ndarray sample) (processed : list sample)
    (e : exn) :
  output_layout indata processed = Raise e -> e = ValueError.
Proof.
  unfold output_layout. destruct (shape1 indata =? 1)%nat.
  - discriminate.
  - apply column_stack_exn.
Qed.

Lemma gain_stage_length (processed : list sample) :
  length (gain_stage processed) = length processed.
Proof. apply length_map. Qed.

Lemma gain_stage_nth (processed : list sample) (i : nat) :
  nth_error (gain_stage processed) i
  = option_map (fun x => np_multiply x GAIN) (nth_error processed i).
Proof. apply nth_error_map. Qed.

(** Every exception of the pipeline is one of a builtin or a library. *)
Lemma transformed_exn (indata : ndarray sample) (e : exn) :
  transformed indata = Raise e -> library_exn e = true.
Proof.
  unfold transformed. intros H.
  apply bind_raise in H. destruct H as [H | (audio & _ & H)].
  { apply input_audio_exn in H. now subst e. }
  apply bind_raise in H. destruct H as [H | (pitched & _ & H)].
  { now apply shift_pitch_exn in H. }
  apply bind_raise in H. destruct H as [H | (processed & _ & H)].
  { now apply shift_formant_exn in H. }
  apply output_layout_exn in H. now subst e.
Qed.

Lemma process_audio_block_exn (indata : ndarray sample) (frames : Z)
    (time : time_info) (status : CallbackFlags) (st : store sample)
    (e : exn) :
  fst (process_audio_block indata frames time status st) = Raise e ->
  library_exn e = true.
Proof.
  unfold process_audio_block.
  destruct (value <- transformed indata ;; assign_all (outdata st) value)
    as [out | e'] eqn:Hrun; simpl; [discriminate|].
  intros H. inversion H; subst e'; clear H.
  apply bind_raise in Hrun. destruct Hrun as [H | (value & _ & H)].
  - now apply transformed_exn in H.
  - apply assign_all_exn in H. now subst e.
Qed.

Lemma process_audio_block_keeps_shape (indata : ndarray sample) (frames : Z)
    (time : time_info) (status : CallbackFlags) (st : store sample) :
  same_shape
    (outdata (snd (process_audio_block indata frames time status st)))
    (outdata st).
Proof.
  unfold process_audio_block.
  destruct (value <- transformed indata ;; assign_all (outdata st) value)
    as [out | e] eqn:Hrun; simpl.
  - invert_bind Hrun. now apply assign_all_keeps_shape in Hrun.
  - split; reflexivity.
Qed.

(** The array handed to the assignment has one row per mono sample. *)
Lemma transformed_shape (indata value : ndarray sample) :
  transformed indata = Ok value ->
  exists audio, input_audio indata = Ok audio
                /\ shape0 value = length audio
                /\ shape1 value = if (shape1 indata =? 1)%nat then 1%nat
                                  else 2%nat.
Proof.
  unfold transformed. intros H.
  apply bind_ok in H. destruct H as (audio & Haudio & H).
  apply bind_ok in H. destruct H as (pitched & Hpitched & H).
  apply bind_ok in H. destruct H as (processed & Hprocessed & H).
  apply shift_pitch_length in Hpitched.
  apply shift_formant_length in Hprocessed.
  exists audio. split; [exact Haudio|].
  unfold output_layout in H. destruct (shape1 indata =? 1)%nat.
  - inversion H; subst value. unfold shape0. simpl.
    rewrite length_map, gain_stage_length. split; congruence.
  - rewrite column_stack_diag in H. inversion H; subst value.
    unfold shape0. simpl.
    rewrite length_map, gain_stage_length. split; congruence.
Qed.

(** What one call writes, and whether it fails, is decided by the input
    block and the shape of the buffer. *)
Lemma process_audio_block_shape (indata : ndarray sample) (frames frames' : Z)
    (time time' : time_info) (status status' : CallbackFlags)
    (st st' : store sample) :
  same_shape (outdata st) (outdata st') ->
  let r := process_audio_block indata frames time status st in
  let r' := process_audio_block indata frames' time' status' st' in
  fst r = fst r' /\ (fst r = Ok tt -> outdata (snd r) = outdata (snd r')).
Proof.
  intros Hshape. unfold process_audio_block.
  assert (Heq : (value <- transformed indata ;; assign_all (outdata st) value)
                = (value <- transformed indata ;;
                   assign_all (outdata st') value)).
  { destruct (transformed indata) as [value | e]; simpl; [|reflexivity].
    now apply assign_all_shape. }
  rewrite <- Heq.
  destruct (value <- transformed indata ;; assign_all (outdata st) value);
    simpl; split; auto; discriminate.
Qed.

End Callback.

(** ** Both directions between rounding and truncation *)

(** A rounded value below 2 leaves a truncated value of at most 1. *)
Lemma round_lt_2_int_le_1 (x : float) (r : Z) :
  spec_round x = Ok r -> (r < 2)%Z ->
  exists n, py_int x = Ok n /\ (n <= 1)%Z.
Proof.
  unfold spec_round, py_int.
  destruct (Prim2SF x) as [s | s | | s m e]; try discriminate.
  - intros _ _. exists 0%Z. split; [reflexivity | lia].
  - destruct (Z.leb_spec 0 e) as [He | He].
    + intros H Hr. inversion H as [Hr']. eexists; split; [reflexivity | lia].
    + rewrite Z.shiftl_1_l, Z.shiftr_div_pow2 by lia.
      assert (Hd : (0 < 2 ^ (- e))%Z) by (apply Z.pow_pos_nonneg; lia).
      assert (Hq : (0 <= Z.pos m / 2 ^ (- e))%Z) by (apply Z.div_pos; lia).
      intros H Hr. inversion H as [Hr']; clear H.
      eexists; split; [reflexivity|]. revert Hr'.
      destruct s; destruct (Z.compare _ _); try destruct (Z.even _); lia.
Qed.

(** ** Properties of the pipeline *)

Section Claims.
Context {sample : Type} {lib : DspLib sample}.


(** C2, as the code has it: a block whose channel count is neither 1 nor 2
    is not rejected by the mono conversion, which returns all its samples in
    row-major order, frames times channels of them.  No call of the callback
    ends in [UnsupportedChannelLayout]; with an output buffer of as many
    frames as the block, at least one, the call does fail, with the exception
    of a library or of the final assignment. *)
Theorem other_layouts_are_flattened (indata : ndarray sample) :
  shape1 indata <> 1%nat -> shape1 indata <> 2%nat -> rectangular indata ->
  input_audio indata = Ok (flatten indata)
  /\ length (flatten indata) = (shape0 indata * shape1 indata)%nat
  /\ forall frames time status st,
       fst (process_audio_block indata frames time status st)
       <> Raise UnsupportedChannelLayout
       /\ (shape0 (outdata st) = shape0 indata -> (1 <= shape0 indata)%nat ->
           exists e, fst (process_audio_block indata frames time status st)
                     = Raise e /\ library_exn e = true).
Proof.
  intros H1 H2 Hrect.
  assert (Hin : input_audio indata = Ok (flatten indata)).
  { unfold input_audio.
    destruct (Nat.eqb_spec (shape1 indata) 2); [contradiction | reflexivity]. }
  pose proof (flatten_length Hrect) as Hlen.
  split; [exact Hin|]. split; [exact Hlen|].
  intros frames time status st. split.
  { intros H. apply process_audio_block_exn in H. discriminate. }
  intros Hframes Hpos.
  destruct (fst (process_audio_block indata frames time status st))
    as [u | e] eqn:Hrun.
  2:{ exists e. split; [reflexivity|].
      now apply process_audio_block_exn in Hrun. }
  exfalso. unfold process_audio_block in Hrun.
  destruct (transformed indata) as [value | e] eqn:Hvalue; simpl in Hrun;
    [|discriminate].
  apply transformed_shape in Hvalue.
  destruct Hvalue as (audio & Haudio & Hrows & _).
  rewrite Hin in Haudio. inversion Haudio; subst audio; clear Haudio.
  unfold assign_all in Hrun.
  replace (broadcastable (shape0 value) (shape0 (outdata st))) with false
    in Hrun; [simpl in Hrun; discriminate|].
  symmetry. unfold broadcastable. rewrite Hrows, Hlen, Hframes.
  apply orb_false_iff.
  split; apply Nat.eqb_neq; destruct (shape1 indata) as [|[|[|c]]]; nia.
Qed.

(** C3, as the code has it: a block that [shift_formant] returns was obtained
    by resampling the input to [int(len * ratio)] samples, the product cut
    toward zero, and resampling that intermediate signal to [len] samples. *)
Theorem shift_formant_resamples_twice (audio out : list sample)
    (formant_factor : float) :
  shift_formant audio formant_factor = Ok out ->
  exists num s,
    stretched_length (length audio) formant_factor = Ok num
    /\ resample audio num = Ok s
    /\ Z.of_nat (length s) = num
    /\ resample s (Z.of_nat (length audio)) = Ok out
    /\ length out = length audio.
Proof.
  intros H. pose proof (shift_formant_length _ _ H) as Hlen.
  unfold shift_formant in H. invert_bind H.
  apply stretched_ok in Ha. destruct Ha as (num & Hnum & Hs & Hslen).
  exists num, a. auto.
Qed.

(** C4, as the code has it: when the rounded intermediate length is below 2
    the truncated one is at most 1, and when it is exactly 1 [shift_formant]
    does not fail: it returns a block of the input's length.  What happens
    below 1 is left to [resample]. *)
Theorem shift_formant_short_intermediate (audio : list sample)
    (formant_factor : float) (r : Z) :
  spec_stretched_length (length audio) formant_factor = Ok r -> (r < 2)%Z ->
  exists num,
    stretched_length (length audio) formant_factor = Ok num
    /\ (num <= 1)%Z
    /\ (num = 1%Z -> exists out, shift_formant audio formant_factor = Ok out
                                 /\ length out = length audio).
Proof.
  intros Hr Hlt.
  destruct (round_lt_2_int_le_1 _ Hr Hlt) as (num & Hnum & Hle).
  exists num. repeat split; auto.
  intros ->.
  apply shift_formant_returns with (num := 1%Z); [exact Hnum | lia |].
  intros ->. apply stretched_length_empty in Hnum. discriminate.
Qed.


(** C6: for a block of two channels the mono signal is the first channel,
    sample by sample and in order; any other two-channel block with the same
    first channel, whatever its second, gives the same mono signal. *)
Theorem stereo_keeps_first_channel (indata : ndarray sample) :
  rectangular indata -> shape1 indata = 2%nat ->
  exists left,
    input_audio indata = Ok left
    /\ first_channel indata = map Some left
    /\ length left = shape0 indata
    /\ forall indata', shape1 indata' = 2%nat ->
         first_channel indata' = first_channel indata ->
         input_audio indata' = Ok left.
Proof.
  intros Hrect H2.
  assert (Hhd : forall rs : list (list sample),
             map (fun r => nth_error r 0) rs = map (@hd_error sample) rs).
  { intros rs. apply map_ext. apply nth_error_0. }
  assert (Hin : forall a : ndarray sample,
             shape1 a = 2%nat -> input_audio a = column 0 (rows a)).
  { intros a Ha. unfold input_audio, take_column. now rewrite Ha. }
  unfold rectangular in Hrect. rewrite H2 in Hrect.
  destruct (column_returns (j := 0) Hrect) as (left & Hleft & Hlen); [lia|].
  assert (Hfirst : first_channel indata = map Some left).
  { unfold first_channel. rewrite <- Hhd. now apply column_spec. }
  exists left. repeat split; auto.
  - now rewrite Hin.
  - intros indata' H2' Hsame. rewrite Hin by assumption.
    apply column_spec. rewrite Hhd.
    unfold first_channel in Hsame, Hfirst. congruence.
Qed.

(** C7: for a two-channel stream the array built from the mono block [m] has
    two channels, one row per sample, and each of its channels is [m] itself;
    a buffer of that shape receives it unchanged. *)
Theorem mono_is_duplicated (indata : ndarray sample) (m : list sample) :
  shape1 indata = 2%nat ->
  exists out,
    output_layout indata m = Ok out
    /\ shape1 out = 2%nat
    /\ shape0 out = length m
    /\ rectangular out
    /\ take_column out 0 = Ok m
    /\ take_column out 1 = Ok m
    /\ forall buffer, shape0 buffer = length m -> shape1 buffer = 2%nat ->
                      assign_all buffer out = Ok out.
Proof.
  intros H2.
  set (out := {| shape1 := 2; rows := map (fun x : sample => [x; x]) m |}).
  assert (Hrect : rectangular out).
  { unfold rectangular, out. simpl. apply Forall_map.
    apply Forall_forall. reflexivity. }
  assert (Hrows : shape0 out = length m)
    by (unfold shape0, out; simpl; apply length_map).
  assert (Hcol : forall j, (j < 2)%nat -> take_column out j = Ok m).
  { intros j Hj. unfold take_column, out. simpl.
    destruct (Nat.ltb_spec j 2) as [_ | Hge]; [|lia].
    apply column_spec. rewrite map_map. apply map_ext. intros x.
    destruct j as [|[|j]]; [reflexivity | reflexivity | lia]. }
  exists out. repeat split; auto.
  - unfold output_layout. rewrite H2. simpl. apply column_stack_diag.
  - intros buffer H0 H1. apply assign_all_exact; [exact Hrect|].
    split; [congruence | simpl; congruence].
Qed.

End Claims.

(** ** The properties on the concrete blocks *)


(** C2 fails as stated: a block of three channels is turned into a mono
    block of six samples. *)
Lemma three_channels_give_a_block :
  input_audio three_channels = Ok [1; 2; 3; 4; 5; 6]%float.
Proof. reflexivity. Qed.

(** C2, as the code has it, on the block of three channels. *)
Lemma other_layouts_are_flattened_on_block :
  input_audio three_channels = Ok (flatten three_channels)
  /\ length (flatten three_channels)
     = (shape0 three_channels * shape1 three_channels)%nat
  /\ forall frames time status st,
       fst (process_audio_block three_channels frames time status st)
       <> Raise UnsupportedChannelLayout
       /\ (shape0 (outdata st) = shape0 three_channels ->
           (1 <= shape0 three_channels)%nat ->
           exists e,
             fst (process_audio_block three_channels frames time status st)
             = Raise e /\ library_exn e = true).
Proof.
  apply (@other_layouts_are_flattened float reference_lib three_channels).
  - simpl; lia.
  - simpl; lia.
  - repeat constructor.
Defined.

(** C3 fails as stated: at the configured block size and formant ratio the
    product is 1228.8, which rounds to 1229, and the intermediate signal has
    1228 samples, whatever the library. *)
Lemma intermediate_length_is_truncated :
  spec_stretched_length 1024 FORMANT_SHIFT = Ok 1229%Z
  /\ stretched_length 1024 FORMANT_SHIFT = Ok 1228%Z
  /\ forall lib : DspLib float,
       exists s, stretched (silence 1024) FORMANT_SHIFT = Ok s
                 /\ length s = 1228%nat.
Proof.
  split; [vm_compute; reflexivity|].
  split; [vm_compute; reflexivity|].
  intros lib.
  destruct (@stretched_returns float lib (silence 1024) FORMANT_SHIFT
              1228%Z) as (s & Hs & Hlen).
  - vm_compute. reflexivity.
  - lia.
  - discriminate.
  - exists s. split; [exact Hs | lia].
Qed.

(** C3, as the code has it, on a block of five samples: the intermediate
    signal has int(5 * 1.2) = 6 samples. *)
Lemma shift_formant_resamples_twice_on_block :
  exists num s,
    stretched_length (length [1; 2; 3; 4; 5]%float) FORMANT_SHIFT = Ok num
    /\ resample [1; 2; 3; 4; 5]%float num = Ok s
    /\ Z.of_nat (length s) = num
    /\ resample s (Z.of_nat (length [1; 2; 3; 4; 5]%float))
       = Ok [1; 1; 2; 3; 4]%float
    /\ length [1; 1; 2; 3; 4]%float = length [1; 2; 3; 4; 5]%float.
Proof.
  apply (@shift_formant_resamples_twice float reference_lib
           [1; 2; 3; 4; 5]%float [1; 1; 2; 3; 4]%float FORMANT_SHIFT).
  vm_compute. reflexivity.
Defined.

(** C4 fails as stated: for a block of two samples and ratio 0.5 the rounded
    intermediate length is 1, below 2, and [shift_formant] returns a block of
    two samples, whatever the library. *)
Lemma short_intermediate_returns :
  spec_stretched_length 2 0.5 = Ok 1%Z
  /\ forall lib : DspLib float,
       exists out, shift_formant [1; 2]%float 0.5 = Ok out
                   /\ length out = 2%nat.
Proof.
  split; [vm_compute; reflexivity|].
  intros lib.
  apply (@shift_formant_returns float lib [1; 2]%float 0.5 1%Z).
  - vm_compute. reflexivity.
  - lia.
  - discriminate.
Qed.

(** C4, as the code has it, on that block. *)
Lemma shift_formant_short_intermediate_on_block :
  exists num,
    stretched_length (length [1; 2]%float) 0.5 = Ok num
    /\ (num <= 1)%Z
    /\ (num = 1%Z -> exists out, shift_formant [1; 2]%float 0.5 = Ok out
                                 /\ length out = length [1; 2]%float).
Proof.
  apply (@shift_formant_short_intermediate float reference_lib
           [1; 2]%float 0.5 1%Z).
  - vm_compute. reflexivity.
  - lia.
Defined.


(** C6 on a block of two frames: the mono signal is the first channel, also
    for the block with another second channel. *)
Lemma stereo_keeps_first_channel_on_block :
  exists left,
    input_audio two_channels = Ok left
    /\ first_channel two_channels = map Some left
    /\ length left = shape0 two_channels
    /\ forall indata', shape1 indata' = 2%nat ->
         first_channel indata' = first_channel two_channels ->
         input_audio indata' = Ok left.
Proof.
  apply (@stereo_keeps_first_channel float two_channels).
  - repeat constructor.
  - reflexivity.
Defined.

(** The two blocks differ in their second channel only and give one mono
    signal. *)
Lemma second_channel_is_ignored_on_block :
  input_audio two_channels = Ok [1; 2]%float
  /\ input_audio two_channels' = Ok [1; 2]%float.
Proof. split; reflexivity. Qed.

(** C7 on a mono block of two samples. *)
Lemma mono_is_duplicated_on_block :
  exists out,
    output_layout two_channels [1; 2]%float = Ok out
    /\ shape1 out = 2%nat
    /\ shape0 out = length [1; 2]%float
    /\ rectangular out
    /\ take_column out 0 = Ok [1; 2]%float
    /\ take_column out 1 = Ok [1; 2]%float
    /\ forall buffer, shape0 buffer = length [1; 2]%float ->
                      shape1 buffer = 2%nat ->
                      assign_all buffer out = Ok out.
Proof.
  apply (@mono_is_duplicated float two_channels [1; 2]%float).
  reflexivity.
Defined.

(** ** Further facts about the stages *)

(** The gain stage works sample by sample: it keeps the length of the block
    and sample [i] of the result is sample [i] times 1.2. *)
Theorem gain_stage_is_elementwise {sample : Type} {lib : DspLib sample}
    (processed : list sample) :
  length (gain_stage processed) = length processed
  /\ forall i, nth_error (gain_stage processed) i
               = option_map (fun x => np_multiply x GAIN)
                   (nth_error processed i).
Proof.
  split; [apply gain_stage_length | intros i; apply gain_stage_nth].
Qed.

(** On binary64 samples the products are left as they are: full-scale
    samples leave the range from -1 to 1. *)
Theorem gain_stage_is_not_clamped :
  gain_stage (lib := reference_lib) [1; -1; 0.5]%float
  = [0x1.3333333333333p+0; -0x1.3333333333333p+0; 0x1.3333333333333p-1]%float.
Proof. vm_compute. reflexivity. Qed.

(** At ratio 1 [shift_pitch] asks librosa for a shift of zero steps, and for
    a block of the configured size the intermediate signal of
    [shift_formant] has the size of the block. *)
Theorem unit_ratios {sample : Type} {lib : DspLib sample}
    (audio : list sample) :
  shift_pitch audio 1 = pitch_shift audio SAMPLE_RATE 0
  /\ stretched_length (Z.to_nat BLOCK_SIZE) 1 = Ok BLOCK_SIZE.
Proof.
  split.
  - unfold shift_pitch. rewrite np_log2_one. reflexivity.
  - vm_compute. reflexivity.
Qed.

(** ** More on [shift_formant] *)

Lemma range_all_spec (p : Z -> bool) (count : nat) (from : Z) :
  range_all p count from = true ->
  forall k, (from <= k < from + Z.of_nat count)%Z -> p k = true.
Proof.
  revert from. induction count as [|count IH]; intros from H k Hk.
  - simpl in Hk. lia.
  - simpl in H. apply andb_true_iff in H. destruct H as [Hfrom Hrest].
    destruct (Z.eq_dec k from) as [-> | Hne]; [exact Hfrom|].
    apply (IH (from + 1)%Z Hrest). lia.
Qed.

Lemma py_int_no_positive (x : float) (n : Z) :
  no_positive_int (Prim2SF x) -> py_int x = Ok n -> (n <= 0)%Z.
Proof.
  unfold py_int, no_positive_int.
  destruct (Prim2SF x) as [s | s | | [|] m e]; try discriminate;
    intros Hx H; inversion H; try lia; try contradiction.
  assert (0 <= Z.shiftl (Z.pos m) e)%Z by (apply Z.shiftl_nonneg; lia).
  assert (0 <= Z.shiftr (Z.pos m) (- e))%Z by (apply Z.shiftr_nonneg; lia).
  destruct (0 <=? e)%Z; lia.
Qed.

(** Rounding keeps the sign it is given. *)
Lemma binary_round_aux_sign (s : bool) (m e : Z) (l : location) :
  match binary_round_aux prec emax s m e l with
  | S754_zero s' | S754_infinity s' | S754_finite s' _ _ => s' = s
  | S754_nan => True
  end.
Proof.
  unfold binary_round_aux.
  destruct (shr_fexp prec emax m e l) as [mrs e'].
  destruct (shr_fexp prec emax _ e' loc_Exact) as [mrs' e''].
  destruct (shr_m mrs'); [reflexivity | | exact I].
  destruct (e'' <=? emax - prec)%Z; reflexivity.
Qed.

(** The length of a block is not a negative float. *)
Lemma float_of_len_sign (n : nat) : sign_clear (Prim2SF (float_of_len n)).
Proof.
  unfold float_of_len. rewrite of_uint63_spec.
  pose proof (Uint63.to_Z_bounded (Uint63.of_Z (Z.of_nat n))) as Hb.
  unfold binary_normalize.
  destruct (Uint63Axioms.to_Z (Uint63.of_Z (Z.of_nat n))) as [|p|p];
    [reflexivity | | lia].
  unfold binary_round.
  destruct (shl_align p 0 _) as [mz ez].
  pose proof (binary_round_aux_sign false (Z.pos mz) ez loc_Exact) as H.
  unfold sign_clear.
  destruct (binary_round_aux prec emax false (Z.pos mz) ez loc_Exact); auto.
Qed.

(** A ratio that is not above zero is a zero, a negative number or NaN. *)
Lemma positive_ratio_false (ratio : float) :
  positive_ratio ratio = false ->
  match Prim2SF ratio with
  | S754_zero _ | S754_nan => True
  | S754_infinity s | S754_finite s _ _ => s = true
  end.
Proof.
  unfold positive_ratio. rewrite compare_spec.
  change (Prim2SF 0) with (S754_zero false).
  destruct (Prim2SF ratio) as [s | [|] | | [|] m e]; simpl;
    auto; discriminate.
Qed.

(** The product of a length and such a ratio is nothing [int] makes
    positive. *)
Lemma product_no_positive (n : nat) (ratio : float) :
  positive_ratio ratio = false ->
  no_positive_int (Prim2SF (float_of_len n * ratio)%float).
Proof.
  intros Hratio. apply positive_ratio_false in Hratio.
  pose proof (float_of_len_sign n) as Hlen.
  rewrite mul_spec. unfold SF64mul, SFmul.
  destruct (Prim2SF (float_of_len n)) as [sl | sl | | sl ml el];
    destruct (Prim2SF ratio) as [sr | sr | | sr mr er];
    simpl in *; subst; try exact I.
  change (xorb false true) with true.
  pose proof (binary_round_aux_sign true (Z.pos (ml * mr)) (el + er) loc_Exact)
    as H.
  destruct (binary_round_aux prec emax true (Z.pos (ml * mr)) (el + er)
              loc_Exact); subst; exact I.
Qed.

Section FormantDomain.
Context {sample : Type} {lib : DspLib sample}.

(** A ratio that is not above zero, NaN included, never gives a positive
    intermediate length.  When the product is infinite or NaN, [int] raises
    [OverflowError] or [ValueError] and so does [shift_formant]; when the
    length is negative, [shift_formant] fails in [resample]. *)
Theorem shift_formant_rejects_nonpositive (audio : list sample)
    (ratio : float) :
  positive_ratio ratio = false ->
  match stretched_length (length audio) ratio with
  | Ok num =>
      (num <= 0)%Z
      /\ ((num < 0)%Z -> exists e, shift_formant audio ratio = Raise e)
  | Raise e =>
      shift_formant audio ratio = Raise e
      /\ (e = ValueError \/ e = OverflowError)
  end.
Proof.
  intros Hratio.
  pose proof (@product_no_positive (length audio) ratio Hratio) as Hprod.
  unfold shift_formant, stretched, stretched_length.
  destruct (py_int (float_of_len (length audio) * ratio)%float)
    as [num | e] eqn:Hnum; simpl.
  - split; [exact (@py_int_no_positive _ num Hprod Hnum)|].
    intros Hneg. destruct (resample_negative audio Hneg) as (e & He).
    rewrite He. simpl. eauto.
  - split; [reflexivity|]. now apply py_int_exn in Hnum.
Qed.

Lemma shift_formant_nil (ratio : float) :
  exists e, shift_formant (@nil sample) ratio = Raise e.
Proof.
  unfold shift_formant, stretched.
  destruct (stretched_length (length (@nil sample)) ratio) as [num | e];
    simpl; [|eauto].
  destruct (resample_empty num) as (e & He). rewrite He. simpl. eauto.
Qed.

(** The empty block is rejected whatever the ratio: [resample] does not
    take an empty array. *)
Theorem shift_formant_empty (audio : list sample) (ratio : float) :
  length audio = 0%nat -> exists e, shift_formant audio ratio = Raise e.
Proof.
  intros H. destruct audio; [apply shift_formant_nil | discriminate].
Qed.

Lemma configured_formant_returns (audio : list sample) :
  (1 <= Z.of_nat (length audio) <= 65536)%Z ->
  stretched_length (length audio) FORMANT_SHIFT
  = Ok (6 * Z.of_nat (length audio) / 5)%Z
  /\ exists out, shift_formant audio FORMANT_SHIFT = Ok out
                 /\ length out = length audio.
Proof.
  intros Hlen.
  assert (Hk : six_fifths (Z.of_nat (length audio)) = true).
  { apply (@range_all_spec six_fifths (Z.to_nat 65536) 1).
    - vm_compute. reflexivity.
    - rewrite Z2Nat.id by lia. lia. }
  unfold six_fifths in Hk.
  assert (Hnum : stretched_length (length audio) FORMANT_SHIFT
                 = Ok (6 * Z.of_nat (length audio) / 5)%Z).
  { unfold stretched_length, float_of_len.
    destruct (py_int _) as [num | e]; [|discriminate].
    apply Z.eqb_eq in Hk. now subst num. }
  split; [exact Hnum|].
  apply (@shift_formant_returns _ _ audio FORMANT_SHIFT _ Hnum).
  - apply Z.div_le_lower_bound; lia.
  - destruct audio; [simpl in Hlen; lia | discriminate].
Qed.

(** At the configured formant ratio a block of 1 to 65536 samples has an
    intermediate signal of six fifths of its length, cut to an integer, and
    [shift_formant] returns a block of the input's length. *)
Theorem configured_formant_shift (audio : list sample) :
  (1 <= Z.of_nat (length audio) <= 65536)%Z ->
  stretched_length (length audio) FORMANT_SHIFT
  = Ok (6 * Z.of_nat (length audio) / 5)%Z
  /\ exists out, shift_formant audio FORMANT_SHIFT = Ok out
                 /\ length out = length audio.
Proof. apply configured_formant_returns. Qed.

End FormantDomain.

(** ** The callback on mono and stereo blocks *)

Section Layouts.
Context {sample : Type} {lib : DspLib sample}.

Lemma flatten_mono (rs : list (list sample)) :
  Forall (fun r => length r = 1%nat) rs ->
  map (@hd_error sample) rs = map Some (concat rs)
  /\ length (concat rs) = length rs.
Proof.
  induction 1 as [|r rs Hr _ [IH1 IH2]]; simpl; [auto|].
  destruct r as [|x [|y r]]; try discriminate. simpl.
  split; congruence.
Qed.

(** For one or two channels the mono signal is the first channel. *)
Lemma input_audio_first_channel (indata : ndarray sample) :
  rectangular indata -> shape1 indata = 1%nat \/ shape1 indata = 2%nat ->
  exists audio, input_audio indata = Ok audio
                /\ first_channel indata = map Some audio
                /\ length audio = shape0 indata.
Proof.
  unfold rectangular, input_audio, first_channel, shape0.
  intros Hrect [H1 | H2].
  - rewrite H1 in *. simpl. exists (flatten indata).
    destruct (flatten_mono Hrect) as [Hhd Hlen]. auto.
  - rewrite H2 in *. simpl. unfold take_column. rewrite H2. simpl.
    destruct (column_returns (j := 0) Hrect) as (audio & Haudio & Hlen);
      [lia|].
    exists audio. repeat split; auto.
    apply column_spec in Haudio. rewrite <- Haudio.
    apply map_ext. intros r. symmetry. apply nth_error_0.
Qed.

Lemma output_layout_rectangular (indata value : ndarray sample)
    (processed : list sample) :
  output_layout indata processed = Ok value -> rectangular value.
Proof.
  unfold output_layout, rectangular.
  destruct (shape1 indata =? 1)%nat.
  - intros H; inversion H. simpl. apply Forall_map.
    apply Forall_forall. reflexivity.
  - rewrite column_stack_diag. intros H; inversion H. simpl.
    apply Forall_map. apply Forall_forall. reflexivity.
Qed.

Lemma transformed_rectangular (indata value : ndarray sample) :
  transformed indata = Ok value -> rectangular value.
Proof.
  unfold transformed. intros H.
  apply bind_ok in H. destruct H as (audio & _ & H).
  apply bind_ok in H. destruct H as (pitched & _ & H).
  apply bind_ok in H. destruct H as (processed & _ & H).
  now apply output_layout_rectangular in H.
Qed.

Lemma buffer_receives_value (indata value : ndarray sample) (frames : Z)
    (time : time_info) (status : CallbackFlags) (st : store sample) :
  rectangular indata -> shape1 indata = 1%nat \/ shape1 indata = 2%nat ->
  same_shape (outdata st) indata ->
  transformed indata = Ok value ->
  same_shape value indata
  /\ rectangular value
  /\ fst (process_audio_block indata frames time status st) = Ok tt
  /\ outdata (snd (process_audio_block indata frames time status st)) = value.
Proof.
  intros Hrect Hch [Hs0 Hs1] Hvalue.
  pose proof (transformed_rectangular _ Hvalue) as Hvrect.
  destruct (transformed_shape _ Hvalue) as (audio & Haudio & Hv0 & Hv1).
  destruct (input_audio_first_channel Hrect Hch) as (audio' & Haudio' & _ & Hlen).
  assert (audio' = audio) by congruence. subst audio'.
  assert (Hshape : same_shape value indata).
  { split; [congruence|]. rewrite Hv1.
    destruct Hch as [-> | ->]; reflexivity. }
  split; [exact Hshape|]. split; [exact Hvrect|].
  unfold process_audio_block. rewrite Hvalue. simpl.
  rewrite assign_all_exact; [simpl; auto | exact Hvrect |].
  destruct Hshape. split; congruence.
Qed.

(** The array the pipeline produces for a block of one or two channels has
    the shape of the block, so a buffer of that shape receives it as it is:
    the callback returns and the buffer holds exactly that array. *)
Theorem callback_fills_buffer (indata value : ndarray sample) (frames : Z)
    (time : time_info) (status : CallbackFlags) (st : store sample) :
  rectangular indata -> shape1 indata = 1%nat \/ shape1 indata = 2%nat ->
  same_shape (outdata st) indata ->
  transformed indata = Ok value ->
  same_shape value indata
  /\ rectangular value
  /\ fst (process_audio_block indata frames time status st) = Ok tt
  /\ outdata (snd (process_audio_block indata frames time status st)) = value.
Proof. apply buffer_receives_value. Qed.

(** A stereo block and a mono block with the same first channel go through
    the same pipeline: the stereo result is the mono result with every
    sample doubled into two channels, and one fails as the other does. *)
Theorem stereo_is_duplicated_mono (stereo mono : ndarray sample) :
  rectangular stereo -> shape1 stereo = 2%nat ->
  rectangular mono -> shape1 mono = 1%nat ->
  first_channel stereo = first_channel mono ->
  match transformed mono with
  | Ok value =>
      transformed stereo
      = Ok {| shape1 := 2; rows := map (fun r => r ++ r) (rows value) |}
  | Raise e => transformed stereo = Raise e
  end.
Proof.
  intros Hrs Hs Hrm Hm Hsame.
  destruct (input_audio_first_channel Hrs (or_intror Hs))
    as (audio & Haudio & Hfirst & _).
  destruct (input_audio_first_channel Hrm (or_introl Hm))
    as (audio' & Haudio' & Hfirst' & _).
  assert (audio' = audio).
  { rewrite Hsame, Hfirst' in Hfirst.
    clear - Hfirst. revert audio Hfirst.
    induction audio' as [|x xs IH]; intros [|y ys] H; simpl in H;
      try discriminate; [reflexivity|].
    inversion H. f_equal. now apply IH. }
  subst audio'. unfold transformed. rewrite Haudio, Haudio'. simpl.
  destruct (shift_pitch audio PITCH_SHIFT) as [pitched | e]; simpl;
    [|reflexivity].
  destruct (shift_formant pitched FORMANT_SHIFT) as [processed | e]; simpl;
    [|reflexivity].
  unfold output_layout. rewrite Hs, Hm. simpl.
  rewrite column_stack_diag. unfold reshape_column. simpl.
  rewrite map_map. reflexivity.
Qed.

(** A block without frames never gets through: the pitch shifter raises on
    it, or the formant shifter does on the empty block the pitch shifter
    returned. *)
Theorem empty_block_fails (indata : ndarray sample) (frames : Z)
    (time : time_info) (status : CallbackFlags) (st : store sample) :
  shape0 indata = 0%nat ->
  exists e, fst (process_audio_block indata frames time status st) = Raise e.
Proof.
  intros Hempty.
  assert (Hrows : rows indata = []).
  { unfold shape0 in Hempty. now destruct (rows indata). }
  assert (Haudio : input_audio indata = Ok []).
  { unfold input_audio, take_column, flatten. rewrite Hrows. simpl.
    destruct (shape1 indata =? 2)%nat eqn:H2; [|reflexivity].
    apply Nat.eqb_eq in H2. rewrite H2. reflexivity. }
  assert (Hfail : exists e, transformed indata = Raise e).
  { unfold transformed. rewrite Haudio. simpl.
    destruct (shift_pitch [] PITCH_SHIFT) as [pitched | e] eqn:Hp; simpl;
      [|eauto].
    apply shift_pitch_length in Hp. destruct pitched; [|discriminate].
    destruct (shift_formant_nil FORMANT_SHIFT) as (e & He).
    rewrite He. simpl. eauto. }
  destruct Hfail as (e & He).
  exists e. unfold process_audio_block. rewrite He. reflexivity.
Qed.

(** A block that is not mono is written as two channels, so a buffer with
    another channel count makes the call fail. *)
Theorem stereo_value_needs_stereo_buffer (indata : ndarray sample)
    (frames : Z) (time : time_info) (status : CallbackFlags)
    (st : store sample) :
  shape1 indata <> 1%nat -> shape1 (outdata st) <> 2%nat ->
  exists e, fst (process_audio_block indata frames time status st) = Raise e
            /\ library_exn e = true.
Proof.
  intros Hin Hout.
  destruct (fst (process_audio_block indata frames time status st))
    as [u | e] eqn:Hrun.
  2:{ exists e. split; [reflexivity|].
      now apply process_audio_block_exn in Hrun. }
  exfalso. unfold process_audio_block in Hrun.
  destruct (transformed indata) as [value | e] eqn:Hvalue; simpl in Hrun;
    [|discriminate].
  apply transformed_shape in Hvalue.
  destruct Hvalue as (audio & _ & _ & Hv1).
  apply Nat.eqb_neq in Hin. rewrite Hin in Hv1.
  unfold assign_all in Hrun. rewrite Hv1 in Hrun.
  replace (broadcastable 2 (shape1 (outdata st))) with false in Hrun.
  - rewrite andb_false_r in Hrun. discriminate.
  - symmetry. unfold broadcastable. apply orb_false_iff.
    split; apply Nat.eqb_neq; lia.
Qed.

Lemma assign_mono_column (out : ndarray sample) (p : list sample) :
  shape0 out = length p ->
  assign_all out (reshape_column p)
  = Ok {| shape1 := shape1 out;
          rows := map (fun x => stretch (shape1 out) [x]) p |}.
Proof.
  intros Hrows. unfold assign_all, reshape_column, broadcastable, shape0.
  unfold shape0 in Hrows. simpl.
  rewrite length_map, Hrows, Nat.eqb_refl. simpl.
  rewrite orb_true_r.
  rewrite stretch_same by now rewrite !length_map.
  now rewrite map_map.
Qed.

(** A mono block fills every channel of the buffer: when the buffer has the
    block's number of frames, each of its channels receives the processed
    mono signal, however many channels it has. *)
Theorem mono_value_fills_every_channel (indata value : ndarray sample)
    (frames : Z) (time : time_info) (status : CallbackFlags)
    (st : store sample) (j : nat) :
  shape1 indata = 1%nat ->
  transformed indata = Ok value ->
  shape0 (outdata st) = shape0 value ->
  (j < shape1 (outdata st))%nat ->
  fst (process_audio_block indata frames time status st) = Ok tt
  /\ take_column
       (outdata (snd (process_audio_block indata frames time status st))) j
     = take_column value 0.
Proof.
  intros Hmono Hvalue Hrows Hj.
  assert (Hform : exists p, value = reshape_column p).
  { unfold transformed in Hvalue.
    apply bind_ok in Hvalue. destruct Hvalue as (audio & _ & H).
    apply bind_ok in H. destruct H as (pitched & _ & H).
    apply bind_ok in H. destruct H as (processed & _ & H).
    unfold output_layout in H. rewrite Hmono in H. simpl in H.
    inversion H. eauto. }
  destruct Hform as (p & ->).
  assert (Hlen : shape0 (outdata st) = length p).
  { rewrite Hrows. unfold shape0, reshape_column. simpl. apply length_map. }
  unfold process_audio_block. rewrite Hvalue. simpl bind.
  rewrite (assign_mono_column (outdata st) p Hlen). simpl.
  split; [reflexivity|].
  assert (Hcol : column 0 (map (fun x : sample => [x]) p) = Ok p).
  { apply column_spec. rewrite map_map. reflexivity. }
  unfold take_column. simpl. rewrite Hcol.
  destruct (Nat.ltb_spec j (shape1 (outdata st))) as [_ | Hge]; [|lia].
  apply column_spec. rewrite map_map.
  apply map_ext. intros x. unfold stretch. simpl.
  destruct (shape1 (outdata st)) as [|[|c]] eqn:Hc; simpl.
  - lia.
  - destruct j; [reflexivity | lia].
  - change (x :: x :: repeat x c) with (repeat x (S (S c))).
    now apply nth_error_repeat.
Qed.

(** With the configured ratios, a block of one or two channels and 1 to
    65536 frames, and a buffer of the block's shape, the call can only fail
    in the pitch shifter: it returns when [shift_pitch] returns and raises
    what [shift_pitch] raises. *)
Theorem only_the_pitch_shifter_fails (indata : ndarray sample) (frames : Z)
    (time : time_info) (status : CallbackFlags) (st : store sample) :
  rectangular indata -> shape1 indata = 1%nat \/ shape1 indata = 2%nat ->
  (1 <= Z.of_nat (shape0 indata) <= 65536)%Z ->
  same_shape (outdata st) indata ->
  exists audio,
    input_audio indata = Ok audio
    /\ match shift_pitch audio PITCH_SHIFT with
       | Ok _ => fst (process_audio_block indata frames time status st) = Ok tt
       | Raise e =>
           fst (process_audio_block indata frames time status st) = Raise e
       end.
Proof.
  intros Hrect Hch Hframes Hshape.
  destruct (input_audio_first_channel Hrect Hch) as (audio & Haudio & _ & Hlen).
  exists audio. split; [exact Haudio|].
  destruct (shift_pitch audio PITCH_SHIFT) as [pitched | e] eqn:Hp.
  - pose proof (shift_pitch_length _ _ Hp) as Hplen.
    destruct (@configured_formant_returns _ _ pitched) as (_ & out & Hout & _);
      [rewrite Hplen, Hlen; exact Hframes|].
    assert (Hvalue : exists value, transformed indata = Ok value).
    { unfold transformed. rewrite Haudio. simpl. rewrite Hp. simpl.
      rewrite Hout. simpl. unfold output_layout.
      destruct (shape1 indata =? 1)%nat; [eauto|].
      rewrite column_stack_diag. eauto. }
    destruct Hvalue as (value & Hvalue).
    now destruct (buffer_receives_value frames time status st Hrect Hch
                    Hshape Hvalue) as (_ & _ & Hok & _).
  - unfold process_audio_block, transformed.
    rewrite Haudio. simpl. rewrite Hp. reflexivity.
Qed.

(** The callback overwrites the whole buffer and reads nothing of it but its
    shape: the buffer keeps its shape, and for two buffers of one shape the
    same block gives the same outcome and, when the call returns, the same
    contents, whatever the buffers held and whatever [frames], [time] and
    [status] are. *)
Theorem callback_overwrites_buffer (indata : ndarray sample)
    (frames frames' : Z) (time time' : time_info)
    (status status' : CallbackFlags) (st st' : store sample) :
  same_shape (outdata st) (outdata st') ->
  same_shape (outdata (snd (process_audio_block indata frames time status st)))
    (outdata st)
  /\ fst (process_audio_block indata frames time status st)
     = fst (process_audio_block indata frames' time' status' st')
  /\ (fst (process_audio_block indata frames time status st) = Ok tt ->
      outdata (snd (process_audio_block indata frames time status st))
      = outdata (snd (process_audio_block indata frames' time' status' st'))).
Proof.
  intros Hshape. split.
  - apply process_audio_block_keeps_shape.
  - now apply process_audio_block_shape.
Qed.

End Layouts.

(** ** Setting up the stream *)

Lemma check_devices_none (input_device output_device : Z)
    (devices : list device) :
  check_devices input_device output_device devices = None
  <-> forall dev, In dev devices ->
        (index dev = input_device -> max_input_channels dev <> 0%Z)
        /\ (index dev = output_device -> max_output_channels dev <> 0%Z).
Proof.
  induction devices as [|d devices IH]; simpl.
  - split; [intros _ dev [] | reflexivity].
  - destruct ((index d =? input_device)%Z && (max_input_channels d =? 0)%Z)
      eqn:Ha.
    { split; [discriminate|]. intros H.
      destruct (H d (or_introl eq_refl)) as [Hin _].
      apply andb_true_iff in Ha. destruct Ha as [Ha1 Ha2].
      apply Z.eqb_eq in Ha1, Ha2. exfalso. now apply Hin. }
    destruct ((index d =? output_device)%Z && (max_output_channels d =? 0)%Z)
      eqn:Hb.
    { split; [discriminate|]. intros H.
      destruct (H d (or_introl eq_refl)) as [_ Hout].
      apply andb_true_iff in Hb. destruct Hb as [Hb1 Hb2].
      apply Z.eqb_eq in Hb1, Hb2. exfalso. now apply Hout. }
    rewrite IH. split.
    + intros H dev [<- | Hin]; [|now apply H].
      split; intros Hidx Hzero; apply Z.eqb_eq in Hidx, Hzero.
      * rewrite Hidx, Hzero in Ha. discriminate.
      * rewrite Hidx, Hzero in Hb. discriminate.
    + intros H dev Hin. apply H. now right.
Qed.

Lemma setup_returned (host : sounddevice) (trace : list event)
    (stream : Stream) :
  setup host = (trace, Return stream) ->
  exists first rest,
    query_devices host = Returned (first :: rest)
    /\ stream = Stream_args
                  (chosen_device (fst (default_device host)) first)
                  (chosen_device (snd (default_device host)) first)
    /\ check_devices (fst (stream_device stream)) (snd (stream_device stream))
         (first :: rest) = None
    /\ Stream_init host stream = None
    /\ trace = [Printed starting_line; Opened stream].
Proof.
  unfold setup.
  destruct (query_devices host) as [[|first rest] | message];
    try (intros H; inversion H; fail).
  destruct (check_devices _ _ (first :: rest)) eqn:Hcheck;
    [intros H; inversion H|].
  destruct (Stream_init host _) eqn:Hinit; intros H; inversion H; subst.
  exists first, rest. repeat split; auto.
Qed.

(** [setup] returns a stream exactly when the device list is there and not
    empty, no listed device with the chosen input index lacks input
    channels, none with the chosen output index lacks output channels, and
    [sd.Stream] accepts the arguments; the stream is the one for the chosen
    devices. *)
Theorem setup_returns_iff (host : sounddevice) (stream : Stream) :
  (exists trace, setup host = (trace, Return stream))
  <-> exists first rest,
        query_devices host = Returned (first :: rest)
        /\ stream = Stream_args
                      (chosen_device (fst (default_device host)) first)
                      (chosen_device (snd (default_device host)) first)
        /\ (forall dev, In dev (first :: rest) ->
              (index dev = fst (stream_device stream) ->
               max_input_channels dev <> 0%Z)
              /\ (index dev = snd (stream_device stream) ->
                  max_output_channels dev <> 0%Z))
        /\ Stream_init host stream = None.
Proof.
  split.
  - intros (trace & H). apply setup_returned in H.
    destruct H as (first & rest & Hq & Hs & Hcheck & Hinit & _).
    exists first, rest.
    split; [exact Hq|]. split; [exact Hs|]. split; [|exact Hinit].
    exact (proj1 (check_devices_none _ _ _) Hcheck).
  - intros (first & rest & Hq & Hs & Hcheck & Hinit).
    apply (proj2 (check_devices_none _ _ _)) in Hcheck.
    unfold setup. rewrite Hq. subst stream.
    cbn [stream_device Stream_args fst snd] in Hcheck.
    rewrite Hcheck, Hinit. eauto.
Qed.

(** The stream [setup] returns was constructed without a callback, for one
    channel at the configured rate and block size; the call printed the
    starting line and opened that stream, nothing else. *)
Theorem setup_registers_no_callback (host : sounddevice)
    (trace : list event) (stream : Stream) :
  setup host = (trace, Return stream) ->
  callback stream = no_callback
  /\ channels stream = 1%Z
  /\ samplerate stream = SAMPLE_RATE
  /\ blocksize stream = BLOCK_SIZE
  /\ trace = [Printed starting_line; Opened stream].
Proof.
  intros H. apply setup_returned in H.
  destruct H as (first & rest & _ & -> & _ & _ & ->).
  repeat split.
Qed.

Lemma setup_outcome (host : sounddevice) :
  match setup host with
  | (trace, Return stream) => trace = [Printed starting_line; Opened stream]
  | (trace, Exit code) =>
      code = 1%Z
      /\ opened trace = []
      /\ exists line, trace = [Printed starting_line; Printed line]
  | (_, Uncaught _) => False
  end.
Proof.
  unfold setup.
  destruct (query_devices host) as [[|first rest] | message].
  - cbn. eauto.
  - destruct (check_devices _ _ (first :: rest)); [cbn; eauto|].
    destruct (Stream_init host _); cbn; eauto.
  - cbn. eauto.
Qed.

(** [setup] lets no exception escape: it returns, or it exits with status 1
    after the starting line and exactly one more line, with no stream
    open. *)
Theorem setup_returns_or_exits (host : sounddevice) :
  match setup host with
  | (trace, Return stream) => trace = [Printed starting_line; Opened stream]
  | (trace, Exit code) =>
      code = 1%Z
      /\ opened trace = []
      /\ exists line, trace = [Printed starting_line; Printed line]
  | (_, Uncaught _) => False
  end.
Proof. apply setup_outcome. Qed.

(** Without default devices the first listed device serves for input and
    for output, and [setup] returns only if it has channels of both
    kinds. *)
Theorem setup_without_defaults (host : sounddevice) (trace : list event)
    (stream : Stream) :
  default_device host = (None, None) ->
  setup host = (trace, Return stream) ->
  exists first rest,
    query_devices host = Returned (first :: rest)
    /\ stream_device stream = (index first, index first)
    /\ max_input_channels first <> 0%Z
    /\ max_output_channels first <> 0%Z.
Proof.
  intros Hdefault H. apply setup_returned in H.
  destruct H as (first & rest & Hq & Hs & Hcheck & _ & _).
  rewrite Hdefault in Hs. simpl in Hs. subst stream.
  cbn [stream_device Stream_args fst snd] in Hcheck.
  exists first, rest. repeat split; auto.
  - destruct (proj1 (check_devices_none _ _ _) Hcheck first (or_introl eq_refl))
      as [Hin _]. now apply Hin.
  - destruct (proj1 (check_devices_none _ _ _) Hcheck first (or_introl eq_refl))
      as [_ Hout]. now apply Hout.
Qed.

(** ** Starting the program *)

(** When [main] reaches the loop, [setup] has run twice: two streams were
    opened, for the devices chosen at each call, the starting line was
    printed twice, and only the second stream was started; neither has a
    callback. *)
Theorem main_opens_two_streams (host host' : sounddevice)
    (trace : list event) (stream : Stream) :
  main_start host host' = (trace, Return stream) ->
  exists first_stream,
    trace = [Printed starting_line; Opened first_stream;
             Printed starting_line; Opened stream; Started stream]
    /\ opened trace = [first_stream; stream]
    /\ started trace = [stream]
    /\ callback first_stream = no_callback
    /\ callback stream = no_callback.
Proof.
  unfold main_start, update_loop_start.
  destruct (setup host) as [tr [s1 | c | m]] eqn:H1;
    try (intros H; inversion H; fail).
  destruct (setup host') as [tr' [s2 | c | m]] eqn:H2;
    try (intros H; inversion H; fail).
  destruct (Stream_start host' s2); intros H; inversion H; subst.
  apply setup_returned in H1. apply setup_returned in H2.
  destruct H1 as (f1 & r1 & _ & -> & _ & _ & ->).
  destruct H2 as (f2 & r2 & _ & -> & _ & _ & ->).
  eexists. repeat split.
Qed.

(** However [main] ends before the loop, it starts at most the stream it
    returns: an exit has status 1 and comes after at most one opened
    stream, which is then left open and never started; an escaping
    exception is the one of [stream.start()], with both streams open. *)
Theorem main_start_cases (host host' : sounddevice) :
  match main_start host host' with
  | (trace, Return stream) => started trace = [stream]
  | (trace, Exit code) =>
      code = 1%Z /\ started trace = [] /\ (length (opened trace) <= 1)%nat
  | (trace, Uncaught message) =>
      started trace = [] /\ length (opened trace) = 2%nat
      /\ exists stream, Stream_start host' stream = Some message
  end.
Proof.
  unfold main_start, update_loop_start.
  pose proof (setup_outcome host) as H1.
  pose proof (setup_outcome host') as H2.
  destruct (setup host) as [tr [s1 | c | m]]; [| | contradiction].
  - subst tr.
    destruct (setup host') as [tr' [s2 | c | m]]; [| | contradiction].
    + subst tr'. destruct (Stream_start host' s2) eqn:Hstart; simpl; eauto.
    + destruct H2 as (-> & _ & line & ->). simpl. auto.
  - destruct H1 as (-> & Hopened & line & ->). simpl. auto.
Qed.

(** ** The further properties on concrete inputs *)

Lemma shift_formant_rejects_nonpositive_on_block :
  match stretched_length (length [1; 2]%float) (-2) with
  | Ok num =>
      (num <= 0)%Z
      /\ ((num < 0)%Z -> exists e, shift_formant [1; 2]%float (-2) = Raise e)
  | Raise e =>
      shift_formant [1; 2]%float (-2) = Raise e
      /\ (e = ValueError \/ e = OverflowError)
  end.
Proof.
  apply (@shift_formant_rejects_nonpositive float reference_lib
           [1; 2]%float (-2)).
  reflexivity.
Defined.

Lemma shift_formant_empty_on_block :
  exists e, shift_formant (@nil float) 0.5 = Raise e.
Proof.
  apply (@shift_formant_empty float reference_lib [] 0.5). reflexivity.
Defined.

Lemma configured_formant_shift_on_block :
  stretched_length (length [1; 2; 3; 4; 5]%float) FORMANT_SHIFT
  = Ok (6 * Z.of_nat (length [1; 2; 3; 4; 5]%float) / 5)%Z
  /\ exists out, shift_formant [1; 2; 3; 4; 5]%float FORMANT_SHIFT = Ok out
                 /\ length out = length [1; 2; 3; 4; 5]%float.
Proof.
  apply (@configured_formant_shift float reference_lib [1; 2; 3; 4; 5]%float).
  simpl. lia.
Defined.

Lemma callback_fills_buffer_on_block :
  same_shape one_channel_value one_channel
  /\ rectangular one_channel_value
  /\ fst (process_audio_block one_channel 4 no_time [] fresh_store) = Ok tt
  /\ outdata (snd (process_audio_block one_channel 4 no_time [] fresh_store))
     = one_channel_value.
Proof.
  apply (@callback_fills_buffer float reference_lib one_channel
           one_channel_value 4 no_time [] fresh_store).
  - repeat constructor.
  - left. reflexivity.
  - split; reflexivity.
  - vm_compute. reflexivity.
Defined.

Lemma only_the_pitch_shifter_fails_on_block :
  exists audio,
    input_audio one_channel = Ok audio
    /\ match shift_pitch audio PITCH_SHIFT with
       | Ok _ =>
           fst (process_audio_block one_channel 4 no_time [] fresh_store)
           = Ok tt
       | Raise e =>
           fst (process_audio_block one_channel 4 no_time [] fresh_store)
           = Raise e
       end.
Proof.
  apply (@only_the_pitch_shifter_fails float reference_lib one_channel 4
           no_time [] fresh_store).
  - repeat constructor.
  - left. reflexivity.
  - simpl. lia.
  - split; reflexivity.
Defined.

Lemma stereo_is_duplicated_mono_on_block :
  match transformed first_of_two with
  | Ok value =>
      transformed two_channels
      = Ok {| shape1 := 2; rows := map (fun r => r ++ r) (rows value) |}
  | Raise e => transformed two_channels = Raise e
  end.
Proof.
  apply (@stereo_is_duplicated_mono float reference_lib two_channels
           first_of_two).
  - repeat constructor.
  - reflexivity.
  - repeat constructor.
  - reflexivity.
  - reflexivity.
Defined.

Lemma empty_block_fails_on_block :
  exists e,
    fst (process_audio_block no_frames 0 no_time [] empty_store) = Raise e.
Proof.
  apply (@empty_block_fails float reference_lib no_frames 0 no_time []
           empty_store).
  reflexivity.
Defined.

Lemma stereo_value_needs_stereo_buffer_on_block :
  exists e,
    fst (process_audio_block two_channels 2 no_time [] fresh_store) = Raise e
    /\ library_exn e = true.
Proof.
  apply (@stereo_value_needs_stereo_buffer float reference_lib two_channels
           2 no_time [] fresh_store).
  - simpl. lia.
  - simpl. lia.
Defined.

Lemma mono_value_fills_every_channel_on_block :
  fst (process_audio_block first_of_two 2 no_time [] wide_store) = Ok tt
  /\ take_column
       (outdata (snd (process_audio_block first_of_two 2 no_time []
                        wide_store))) 2
     = take_column first_of_two_value 0.
Proof.
  apply (@mono_value_fills_every_channel float reference_lib first_of_two
           first_of_two_value 2 no_time [] wide_store 2).
  - reflexivity.
  - vm_compute. reflexivity.
  - reflexivity.
  - simpl. lia.
Defined.

Lemma setup_registers_no_callback_on_host :
  callback (Stream_args 0 0) = no_callback
  /\ channels (Stream_args 0 0) = 1%Z
  /\ samplerate (Stream_args 0 0) = SAMPLE_RATE
  /\ blocksize (Stream_args 0 0) = BLOCK_SIZE
  /\ [Printed starting_line; Opened (Stream_args 0 0)]
     = [Printed starting_line; Opened (Stream_args 0 0)].
Proof.
  apply (@setup_registers_no_callback studio
           [Printed starting_line; Opened (Stream_args 0 0)]
           (Stream_args 0 0)).
  reflexivity.
Defined.

Lemma setup_without_defaults_on_host :
  exists first rest,
    query_devices studio = Returned (first :: rest)
    /\ stream_device (Stream_args 0 0) = (index first, index first)
    /\ max_input_channels first <> 0%Z
    /\ max_output_channels first <> 0%Z.
Proof.
  apply (@setup_without_defaults studio
           [Printed starting_line; Opened (Stream_args 0 0)]
           (Stream_args 0 0)).
  - reflexivity.
  - reflexivity.
Defined.

Lemma main_opens_two_streams_on_host :
  exists first_stream,
    [Printed starting_line; Opened (Stream_args 0 0);
     Printed starting_line; Opened (Stream_args 0 0);
     Started (Stream_args 0 0)]
    = [Printed starting_line; Opened first_stream;
       Printed starting_line; Opened (Stream_args 0 0);
       Started (Stream_args 0 0)]
    /\ opened [Printed starting_line; Opened (Stream_args 0 0);
               Printed starting_line; Opened (Stream_args 0 0);
               Started (Stream_args 0 0)]
       = [first_stream; Stream_args 0 0]
    /\ started [Printed starting_line; Opened (Stream_args 0 0);
                Printed starting_line; Opened (Stream_args 0 0);
                Started (Stream_args 0 0)]
       = [Stream_args 0 0]
    /\ callback first_stream = no_callback
    /\ callback (Stream_args 0 0) = no_callback.
Proof.
  apply (@main_opens_two_streams studio studio
           [Printed starting_line; Opened (Stream_args 0 0);
            Printed starting_line; Opened (Stream_args 0 0);
            Started (Stream_args 0 0)]
           (Stream_args 0 0)).
  reflexivity.
Defined.

Lemma callback_overwrites_buffer_on_block :
  same_shape
    (outdata (snd (process_audio_block one_channel 4 no_time [] fresh_store)))
    (outdata fresh_store)
  /\ fst (process_audio_block one_channel 4 no_time [] fresh_store)
     = fst (process_audio_block one_channel 0 no_time [input_underflow]
              used_store)
  /\ (fst (process_audio_block one_channel 4 no_time [] fresh_store) = Ok tt ->
      outdata (snd (process_audio_block one_channel 4 no_time [] fresh_store))
      = outdata (snd (process_audio_block one_channel 0 no_time
                        [input_underflow] used_store))).
Proof.
  apply (@callback_overwrites_buffer float reference_lib one_channel 4 0
           no_time no_time [] [input_underflow] fresh_store used_store).
  split; reflexivity.
Defined.
